(** * osm_mapgen: the OpenStreetMap import orchestrator

    A shallow embedding of [ModelGenerator.import_from_openstreet_map]
    (src/modelgen.py) and the properties its specification states.

    The method sequences up to four external geometry providers of the [osm]
    package, collects the file names they return in a parts registry, writes
    one JSON descriptor and returns it.  The providers, the file system and
    the logger are effects: the method is embedded in a state-and-exception
    monad over a world made of the files on disk and a log of every external
    call, in the order the interpreter makes them. *)

From Stdlib Require Import ZArith Floats Ascii String.
From stdpp Require Import gmap strings list.

Open Scope Z_scope.
Open Scope string_scope.
Open Scope list_scope.

(** ** Python values *)

(** [terrain_radius : float, int] and the road parameters are numbers. *)
Inductive num : Type :=
| NInt (z : Z)
| NFloat (f : float).

(** The objects the method builds and hands to [json.dump]. A [dict] keeps its
    keys in insertion order, so it is an association list. *)
#[local] Set Warnings "-register-all".
Inductive pyobj : Type :=
| PyNone
| PyBool (b : bool)
| PyInt (z : Z)
| PyFloat (f : float)
| PyStr (s : string)
| PyList (items : list pyobj)
| PyDict (entries : list (string * pyobj)).

Definition py_of_num (n : num) : pyobj :=
  match n with
  | NInt z => PyInt z
  | NFloat f => PyFloat f
  end.

(** *** Arithmetic: [terrain_radius * 0.8] *)

(** The literal [0.8] is the binary64 number nearest to 8/10. *)
Definition float_0_8 : float := 0x1.999999999999ap-1%float.

(** [float(z)] for a Python int: rounded to nearest-even; [None] stands for
    [OverflowError: int too large to convert to float]. *)
Definition py_float_of_int (z : Z) : option float :=
  match SpecFloat.binary_normalize prec emax z 0 false with
  | S754_infinity _ => None
  | sf => Some (SF2Prim sf)
  end.

(** [n * f] with [f] a float: an int operand is converted first. *)
Definition py_mul_float (n : num) (f : float) : option num :=
  match n with
  | NInt z => x ← py_float_of_int z; Some (NFloat (PrimFloat.mul x f))
  | NFloat x => Some (NFloat (PrimFloat.mul x f))
  end.

(** *** Dictionaries *)

Section Dict.
Context {V : Type}.

(** [d[k] = v]: an existing key keeps its place, a new one goes last. *)
Fixpoint dict_setitem (k : string) (v : V) (d : list (string * V))
  : list (string * V) :=
  match d with
  | [] => [(k, v)]
  | (k', v') :: d' =>
      if String.eqb k' k then (k', v) :: d'
      else (k', v') :: dict_setitem k v d'
  end.

(** [d.get(k)] *)
Fixpoint dict_get (k : string) (d : list (string * V)) : option V :=
  match d with
  | [] => None
  | (k', v') :: d' => if String.eqb k' k then Some v' else dict_get k d'
  end.

(** [k in d] *)
Definition dict_contains (k : string) (d : list (string * V)) : bool :=
  match dict_get k d with Some _ => true | None => false end.

(** [list(d.keys())] *)
Definition dict_keys (d : list (string * V)) : list string := d.*1.

(** A display [{k1: v1, ..., kn: vn}] stores its items left to right. *)
Definition dict_display (items : list (string * V)) : list (string * V) :=
  fold_left (fun d kv => dict_setitem kv.1 kv.2 d) items [].
End Dict.

(** [o[k]] on an object that is a dict *)
Definition py_field (k : string) (o : pyobj) : option pyobj :=
  match o with
  | PyDict d => dict_get k d
  | _ => None
  end.

(** *** Paths *)

Definition startswith_char (s : string) (c : Ascii.ascii) : bool :=
  match s with
  | EmptyString => false
  | String x _ => Ascii.eqb x c
  end.

Fixpoint endswith_char (s : string) (c : Ascii.ascii) : bool :=
  match s with
  | EmptyString => false
  | String x EmptyString => Ascii.eqb x c
  | String _ s' => endswith_char s' c
  end.

(** [os.path.join(a, b)], as [posixpath] defines it: an absolute [b] discards
    [a]; otherwise the two are joined by one separator. *)
Definition os_path_join (a b : string) : string :=
  if startswith_char b "/"%char then b
  else if (String.eqb a "" || endswith_char a "/"%char)%bool then a +:+ b
  else a +:+ "/" +:+ b.

(** ** The world outside the method *)

(** What a text file holds: the documents written to it so far. *)
Inductive written : Type :=
| JsonText (obj : pyobj) (indent : Z)    (* the text of json.dump(obj, f, indent=indent) *)
| JsonPrefix (obj : pyobj) (indent : Z). (* what a dump that raised got through: a
                                            beginning of that text *)

Inductive file : Type :=
| BinaryFile (data : list Z)             (* e.g. a mesh saved by a provider *)
| TextFile (encoding : string) (body : list written).

(** The files on disk, under the paths they are written and read by. A path
    is looked up as it is spelled: what is proved below of another file than
    the one a path leads to is proved of paths that cannot lead to it (see
    [aliasing]). *)
Abbreviation disk := (gmap string file).

(** What a provider returns: [{"file_name": ..., "mesh": ...}]. *)
Record geo (Mesh : Type) : Type := Geo { file_name : string; mesh : Mesh }.
Arguments Geo {Mesh} _ _.
Arguments file_name {Mesh} _.
Arguments mesh {Mesh} _.

(** The four provider classes of the [osm] package. *)
Inductive provider : Type := Terrain | Buildings | Trees | Roads.

#[global] Instance provider_eq_dec : EqDecision provider.
Proof. solve_decision. Defined.

(** Why [json.dump] into an open file raises: the encoder meets something it
    cannot write down (an [int] of more digits than the interpreter converts
    to text: 4300 from Python 3.11 on), or the system fails a write or the
    closing flush. *)
Inductive dump_error : Type :=
| NotEncodable               (* ValueError *)
| WriteFailed (errno : Z).   (* OSError *)

(** The [osm] package, the interpreter's library and the operating system, as
    the method sees them. Every operation of a provider may change the files
    on disk and either returns or raises. [E] is whatever a provider raises,
    [Mesh] a mesh handle, [Prep] a provider instance. *)
Record platform (E Mesh Prep : Type) : Type := Platform {
  (* TerrainPrep(cad_path=..), BuildingsPrep(..), TreesPrep(..), RoadPrep(..) *)
  construct : provider -> string -> disk -> (E + Prep) * disk;
  (* prep.get_terrain(latitude_longitude, max_radius=.., grid_size=..) *)
  get_terrain : Prep -> list num -> num -> Z -> disk -> (E + geo Mesh) * disk;
  (* prep.generate_buildings(latitude_longitude, terrain_mesh, max_radius=..) *)
  generate_buildings :
    Prep -> list num -> Mesh -> num -> disk -> (E + geo Mesh) * disk;
  (* prep.generate_trees(latitude_longitude, terrain_mesh, max_radius=..) *)
  generate_trees :
    Prep -> list num -> Mesh -> num -> disk -> (E + geo Mesh) * disk;
  (* prep.create_roads(latitude_longitude, terrain_mesh, max_radius=..,
       z_offset=.., road_step=.., road_width=.., save_nodes=..) *)
  create_roads :
    Prep -> list num -> Mesh -> num -> num -> num -> num -> bool ->
    disk -> (E + geo Mesh) * disk;
  (* open(path, "w", ..): [Some errno] when the system refuses *)
  open_refused : disk -> string -> option Z;
  (* json.dump(obj, f, ..) with f open at path, up to the closing of f:
     [Some error] when it raises *)
  dump_refused : disk -> pyobj -> string -> option dump_error
}.
Arguments construct {E Mesh Prep} _ _ _ _.
Arguments get_terrain {E Mesh Prep} _ _ _ _ _ _.
Arguments generate_buildings {E Mesh Prep} _ _ _ _ _ _.
Arguments generate_trees {E Mesh Prep} _ _ _ _ _ _.
Arguments create_roads {E Mesh Prep} _ _ _ _ _ _ _ _ _ _.
Arguments open_refused {E Mesh Prep} _ _ _.
Arguments dump_refused {E Mesh Prep} _ _ _ _.

(** Exceptions that can leave the method. *)
Inductive exn (E : Type) : Type :=
| Raised (e : E)            (* raised inside a provider *)
| OverflowError             (* int too large to convert to float *)
| OSError (errno : Z)       (* open() failed, or a write into the file *)
| ValueError.               (* json.dump() met what it cannot encode *)
Arguments Raised {E} _.
Arguments OverflowError {E}.
Arguments OSError {E} _.
Arguments ValueError {E}.

Definition exn_of_dump_error {E} (e : dump_error) : exn E :=
  match e with
  | NotEncodable => ValueError
  | WriteFailed errno => OSError errno
  end.

(** Every external call the method makes, with its arguments. *)
Inductive event (Mesh : Type) : Type :=
| EvConstruct (p : provider) (cad_path : string)
| EvGetTerrain (latitude_longitude : list num) (max_radius : num) (grid_size : Z)
| EvGenerateBuildings
    (latitude_longitude : list num) (terrain_mesh : Mesh) (max_radius : num)
| EvGenerateTrees
    (latitude_longitude : list num) (terrain_mesh : Mesh) (max_radius : num)
| EvCreateRoads
    (latitude_longitude : list num) (terrain_mesh : Mesh) (max_radius : num)
    (z_offset road_step road_width : num) (save_nodes : bool)
| EvLogInfo (msg : string)
| EvOpen (path mode encoding : string)
| EvJsonDump (obj : pyobj) (path : string) (indent : Z).
Arguments EvConstruct {Mesh} _ _.
Arguments EvGetTerrain {Mesh} _ _ _.
Arguments EvGenerateBuildings {Mesh} _ _ _.
Arguments EvGenerateTrees {Mesh} _ _ _.
Arguments EvCreateRoads {Mesh} _ _ _ _ _ _ _.
Arguments EvLogInfo {Mesh} _.
Arguments EvOpen {Mesh} _ _ _.
Arguments EvJsonDump {Mesh} _ _ _.

Record world (Mesh : Type) : Type := World {
  files : disk;
  events : list (event Mesh)
}.
Arguments World {Mesh} _ _.
Arguments files {Mesh} _.
Arguments events {Mesh} _.

(** ** The monad: state over the world, with exceptions *)

Definition M (E Mesh A : Type) : Type :=
  world Mesh -> (exn E + A) * world Mesh.

#[global] Instance M_ret {E Mesh} : MRet (M E Mesh) :=
  fun A x w => (inr x, w).

#[global] Instance M_bind {E Mesh} : MBind (M E Mesh) :=
  fun A B k m w =>
    match m w with
    | (inr x, w') => k x w'
    | (inl e, w') => (inl e, w')
    end.

Definition raise {E Mesh A} (e : exn E) : M E Mesh A :=
  fun w => (inl e, w).

Definition emit {E Mesh} (ev : event Mesh) : M E Mesh unit :=
  fun w => (inr tt, World (files w) (events w ++ [ev])).

(** An external call: logged, then run on the disk. *)
Definition extern {E Mesh A} (ev : event Mesh)
    (f : disk -> (E + A) * disk) : M E Mesh A :=
  fun w =>
    let '(r, d) := f (files w) in
    let w' := World d (events w ++ [ev]) in
    match r with
    | inl e => (inl (Raised e), w')
    | inr x => (inr x, w')
    end.

(** An operator that raises [OverflowError]. *)
Definition arith {E Mesh A} (r : option A) : M E Mesh A :=
  match r with
  | Some x => mret x
  | None => raise OverflowError
  end.

(** ** The method *)

(** The parameters of [import_from_openstreet_map] after [self]. *)
Record args : Type := Args {
  latitude_longitude : list num;
  env_name : string;
  terrain_radius : num;
  include_osm_buildings : bool;
  including_osm_roads : bool;
  include_osm_trees : bool;
  import_in_aedt : bool;
  plot_before_importing : bool;
  z_offset : num;
  road_step : num;
  road_width : num;
  create_lightweigth_part : bool;
  save_nodes : bool
}.

(** The arguments a caller may leave out. *)
Record keywords : Type := Keywords {
  kw_env_name : option string;
  kw_terrain_radius : option num;
  kw_include_osm_buildings : option bool;
  kw_including_osm_roads : option bool;
  kw_include_osm_trees : option bool;
  kw_import_in_aedt : option bool;
  kw_plot_before_importing : option bool;
  kw_z_offset : option num;
  kw_road_step : option num;
  kw_road_width : option num;
  kw_create_lightweigth_part : option bool;
  kw_save_nodes : option bool
}.

Definition no_keywords : keywords :=
  Keywords None None None None None None None None None None None None.

(** The signature: each parameter left out takes its default. *)
Definition signature (latlon : list num) (kw : keywords) : args := {|
  latitude_longitude := latlon;
  env_name := default "default" (kw_env_name kw);
  terrain_radius := default (NInt 500) (kw_terrain_radius kw);
  include_osm_buildings := default true (kw_include_osm_buildings kw);
  including_osm_roads := default true (kw_including_osm_roads kw);
  include_osm_trees := default true (kw_include_osm_trees kw);
  import_in_aedt := default false (kw_import_in_aedt kw);
  plot_before_importing := default false (kw_plot_before_importing kw);
  z_offset := default (NInt 2) (kw_z_offset kw);
  road_step := default (NInt 3) (kw_road_step kw);
  road_width := default (NInt 8) (kw_road_width kw);
  create_lightweigth_part := default true (kw_create_lightweigth_part kw);
  save_nodes := default false (kw_save_nodes kw)
|}.

(** A part descriptor: [{"file_name": .., "color": .., "material": ..}]. *)
Definition part_dict (stl color material : string) : pyobj :=
  PyDict (dict_display
    [("file_name", PyStr stl); ("color", PyStr color); ("material", PyStr material)]).

Section Method.
Context {E Mesh Prep : Type}.
Variable osm : platform E Mesh Prep.

Abbreviation M := (M E Mesh).

(** [self.logger.info(msg)] *)
Definition logger_info (msg : string) : M unit := emit (EvLogInfo msg).

(** [TerrainPrep(cad_path=..)] and its three siblings *)
Definition new (p : provider) (cad_path : string) : M Prep :=
  extern (EvConstruct p cad_path) (construct osm p cad_path).

(** [open(path, "w", encoding=..)]: creates the file or empties it. *)
Definition open_w (path encoding : string) : M unit :=
  fun w =>
    let evs := events w ++ [EvOpen path "w" encoding] in
    match open_refused osm (files w) path with
    | Some errno => (inl (OSError errno), World (files w) evs)
    | None => (inr tt, World (<[path := TextFile encoding []]> (files w)) evs)
    end.

Definition append_text (t : written) (f : file) : file :=
  match f with
  | TextFile encoding body => TextFile encoding (body ++ [t])
  | BinaryFile data => BinaryFile data
  end.

(** [json.dump(obj, f, indent=..)] with [f] the file opened at [path], and
    the closing of [f] at the end of the [with] block. The text goes to the
    file piece by piece: when the dump raises, the file is left with a
    beginning of it, and the exception leaves the [with] block. *)
Definition json_dump (obj : pyobj) (path : string) (indent : Z) : M unit :=
  fun w =>
    let evs := events w ++ [EvJsonDump obj path indent] in
    match dump_refused osm (files w) obj path with
    | Some e =>
        (inl (exn_of_dump_error e),
         World (alter (append_text (JsonPrefix obj indent)) path (files w)) evs)
    | None =>
        (inr tt,
         World (alter (append_text (JsonText obj indent)) path (files w)) evs)
    end.

(** The body of the method, statement by statement. Left out: the four
    [from osm import ..] lines, which bind the provider classes; and the
    locals [building_mesh], [tree_mesh] and [road_mesh], which are assigned
    and never read. *)
Definition import_from_openstreet_map (a : args) : M pyobj :=
  let latitude_longitude := latitude_longitude a in
  let terrain_radius := terrain_radius a in
  let output_path := "." in
  let parts_dict := [] in
  (* instantiate terrain module *)
  terrain_prep ← new Terrain output_path;
  terrain_geo ← extern (EvGetTerrain latitude_longitude terrain_radius 30)
    (get_terrain osm terrain_prep latitude_longitude terrain_radius 30);
  let terrain_stl := file_name terrain_geo in
  let terrain_mesh := mesh terrain_geo in
  let terrain_dict := part_dict terrain_stl "brown" "earth" in
  let parts_dict := dict_setitem "terrain" terrain_dict parts_dict in
  parts_dict ←
    (if include_osm_buildings a then
       logger_info "Generating Building Geometry";;
       building_prep ← new Buildings output_path;
       max_radius ← arith (py_mul_float terrain_radius float_0_8);
       building_geo ←
         extern (EvGenerateBuildings latitude_longitude terrain_mesh max_radius)
           (generate_buildings osm building_prep
              latitude_longitude terrain_mesh max_radius);
       let building_stl := file_name building_geo in
       let building_dict := part_dict building_stl "grey" "concrete" in
       mret (dict_setitem "buildings" building_dict parts_dict)
     else mret parts_dict);
  parts_dict ←
    (if include_osm_trees a then
       logger_info "Generating Tree Geometry";;
       tree_prep ← new Trees output_path;
       max_radius ← arith (py_mul_float terrain_radius float_0_8);
       tree_geo ←
         extern (EvGenerateTrees latitude_longitude terrain_mesh max_radius)
           (generate_trees osm tree_prep
              latitude_longitude terrain_mesh max_radius);
       let tree_stl := file_name tree_geo in
       let tree_dict := part_dict tree_stl "green" "wood" in
       mret (dict_setitem "trees" tree_dict parts_dict)
     else mret parts_dict);
  parts_dict ←
    (if including_osm_roads a then
       logger_info "Generating Road Geometry";;
       road_prep ← new Roads output_path;
       road_geo ←
         extern (EvCreateRoads latitude_longitude terrain_mesh terrain_radius
                   (z_offset a) (road_step a) (road_width a) (save_nodes a))
           (create_roads osm road_prep latitude_longitude terrain_mesh
              terrain_radius
              (z_offset a) (road_step a) (road_width a) (save_nodes a));
       let road_stl := file_name road_geo in
       let road_dict := part_dict road_stl "black" "asphalt" in
       mret (dict_setitem "roads" road_dict parts_dict)
     else mret parts_dict);
  let json_path := os_path_join output_path (env_name a +:+ ".json") in
  let scene := PyDict (dict_display
    [("name", PyStr (env_name a));
     ("version", PyInt 1);
     ("type", PyStr "environment");
     ("center_lat_lon", PyList (py_of_num <$> latitude_longitude));
     ("radius", py_of_num terrain_radius);
     ("include_buildings", PyBool (include_osm_buildings a));
     ("include_roads", PyBool (including_osm_roads a));
     ("include_trees", PyBool (include_osm_trees a));
     ("parts", PyDict parts_dict)]) in
  open_w json_path "utf-8";;
  json_dump scene json_path 4;;
  logger_info "Done...";;
  mret scene.

(** A call as the caller writes it: the anchor and any keywords. *)
Definition call (latlon : list num) (kw : keywords) : M pyobj :=
  import_from_openstreet_map (signature latlon kw).
End Method.

(** ** Observing a call *)

Section Observations.
Context {E Mesh Prep : Type}.
Variable osm : platform E Mesh Prep.

(** One call, from the disk [d] and an empty log. *)
Definition run (a : args) (d : disk) : (exn E + pyobj) * world Mesh :=
  import_from_openstreet_map osm a (World d []).

(** What the call returns or raises. *)
Definition result (a : args) (d : disk) : exn E + pyobj := (run a d).1.

(** The external calls it made, in order. *)
Definition log (a : args) (d : disk) : list (event Mesh) := events (run a d).2.

(** The disk it leaves. *)
Definition disk_after (a : args) (d : disk) : disk := files (run a d).2.
End Observations.

Section Projections.
Context {Mesh : Type}.

(** The provider an instance is made of. *)
Definition construction_of (ev : event Mesh) : option provider :=
  match ev with
  | EvConstruct p _ => Some p
  | _ => None
  end.

(** The provider a generation call goes to. *)
Definition generation_of (ev : event Mesh) : option provider :=
  match ev with
  | EvGetTerrain _ _ _ => Some Terrain
  | EvGenerateBuildings _ _ _ => Some Buildings
  | EvGenerateTrees _ _ _ => Some Trees
  | EvCreateRoads _ _ _ _ _ _ _ => Some Roads
  | _ => None
  end.

(** The [max_radius] argument of a generation call to [p]. *)
Definition max_radius_of (p : provider) (ev : event Mesh) : option num :=
  match p, ev with
  | Terrain, EvGetTerrain _ r _ => Some r
  | Buildings, EvGenerateBuildings _ _ r => Some r
  | Trees, EvGenerateTrees _ _ r => Some r
  | Roads, EvCreateRoads _ _ r _ _ _ _ => Some r
  | _, _ => None
  end.

(** The terrain mesh handed to a generation call. *)
Definition terrain_mesh_of (ev : event Mesh) : option Mesh :=
  match ev with
  | EvGenerateBuildings _ m _ => Some m
  | EvGenerateTrees _ m _ => Some m
  | EvCreateRoads _ m _ _ _ _ _ => Some m
  | _ => None
  end.

(** The files the method asked to open: path, mode, encoding. *)
Definition open_of (ev : event Mesh) : option (string * string * string) :=
  match ev with
  | EvOpen path mode encoding => Some (path, mode, encoding)
  | _ => None
  end.

(** The objects the method serialized: object, path, indent. *)
Definition dump_of (ev : event Mesh) : option (pyobj * string * Z) :=
  match ev with
  | EvJsonDump obj path indent => Some (obj, path, indent)
  | _ => None
  end.

Definition constructions (l : list (event Mesh)) := omap construction_of l.
Definition generations (l : list (event Mesh)) := omap generation_of l.
Definition radii (p : provider) (l : list (event Mesh)) := omap (max_radius_of p) l.
Definition terrain_meshes (l : list (event Mesh)) := omap terrain_mesh_of l.
Definition calls_to (p : provider) (l : list (event Mesh)) :=
  filter (fun ev => generation_of ev = Some p) l.
Definition opens (l : list (event Mesh)) := omap open_of l.
Definition dumps (l : list (event Mesh)) := omap dump_of l.
End Projections.

(** The providers a call asks for, in the order of the method's text. *)
Definition requested (a : args) : list provider :=
  Terrain ::
  (if include_osm_buildings a then [Buildings] else []) ++
  (if include_osm_trees a then [Trees] else []) ++
  (if including_osm_roads a then [Roads] else []).

(** The registry key of a provider. *)
Definition part_key (p : provider) : string :=
  match p with
  | Terrain => "terrain"
  | Buildings => "buildings"
  | Trees => "trees"
  | Roads => "roads"
  end.

(** The descriptor fields that repeat the arguments. *)
Definition echoes (a : args) (o : pyobj) : Prop :=
  py_field "center_lat_lon" o = Some (PyList (py_of_num <$> latitude_longitude a)) /\
  py_field "radius" o = Some (py_of_num (terrain_radius a)) /\
  py_field "include_buildings" o = Some (PyBool (include_osm_buildings a)) /\
  py_field "include_roads" o = Some (PyBool (including_osm_roads a)) /\
  py_field "include_trees" o = Some (PyBool (include_osm_trees a)).

(** The path of the descriptor, as the method computes it. *)
Definition json_path (a : args) : string :=
  os_path_join "." (env_name a +:+ ".json").


(** The environment descriptor as the specification lists it, given the
    registry. *)
Definition descriptor (a : args) (parts : list (string * pyobj)) : pyobj :=
  PyDict
    [("name", PyStr (env_name a));
     ("version", PyInt 1);
     ("type", PyStr "environment");
     ("center_lat_lon", PyList (py_of_num <$> latitude_longitude a));
     ("radius", py_of_num (terrain_radius a));
     ("include_buildings", PyBool (include_osm_buildings a));
     ("include_roads", PyBool (including_osm_roads a));
     ("include_trees", PyBool (include_osm_trees a));
     ("parts", PyDict parts)].

(** Two argument lists that differ at most in [import_in_aedt],
    [plot_before_importing] and [create_lightweigth_part]. *)
Definition same_but_unused (a b : args) : Prop :=
  latitude_longitude a = latitude_longitude b /\
  env_name a = env_name b /\
  terrain_radius a = terrain_radius b /\
  include_osm_buildings a = include_osm_buildings b /\
  including_osm_roads a = including_osm_roads b /\
  include_osm_trees a = include_osm_trees b /\
  z_offset a = z_offset b /\
  road_step a = road_step b /\
  road_width a = road_width b /\
  save_nodes a = save_nodes b.

(** ** A small town: a platform to run the method on *)

Module Town.
(** Providers that save an empty mesh file under [cad_path] and number their
    meshes from the terrain's; [broken] names one that raises instead. *)
Definition stl (cad_path name : string) : string := cad_path +:+ "/" +:+ name.

Definition saves (path : string) (handle : Z) (d : disk)
  : (string + geo Z) * disk :=
  (inr (Geo path handle), <[path := BinaryFile []]> d).

Definition osm (broken : option provider) : platform string Z string := {|
  construct p cad_path d := (inr cad_path, d);
  get_terrain prep latlon max_radius grid_size d :=
    if decide (broken = Some Terrain) then (inl "no elevation data", d)
    else saves (stl prep "terrain.stl") 1 d;
  generate_buildings prep latlon terrain_mesh max_radius d :=
    if decide (broken = Some Buildings) then (inl "no buildings", d)
    else saves (stl prep "buildings.stl") (terrain_mesh + 1) d;
  generate_trees prep latlon terrain_mesh max_radius d :=
    if decide (broken = Some Trees) then (inl "no trees", d)
    else saves (stl prep "trees.stl") (terrain_mesh + 2) d;
  create_roads prep latlon terrain_mesh max_radius z step width save d :=
    if decide (broken = Some Roads) then (inl "no roads", d)
    else saves (stl prep "roads.stl") (terrain_mesh + 3) d;
  open_refused d path := None;
  dump_refused d obj path := None
|}.

Definition anchor : list num := [NFloat 40.75%float; NFloat (-73.5)%float].

(** [import_from_openstreet_map(anchor, env_name=name)] *)
Definition named (name : string) : args :=
  signature anchor
    (Keywords (Some name) None None None None None None None None None None None).

(** [import_from_openstreet_map(anchor, env_name=name,
      include_osm_buildings=.., including_osm_roads=.., include_osm_trees=..)] *)
Definition only (name : string) (buildings roads trees : bool) : args :=
  signature anchor
    (Keywords (Some name) None (Some buildings) (Some roads) (Some trees)
       None None None None None None None).

Definition part (name color material : string) : string * pyobj :=
  (name +:+ "s", part_dict ("./" +:+ name +:+ "s.stl") color material).

Definition full_registry : list (string * pyobj) :=
  [("terrain", part_dict "./terrain.stl" "brown" "earth");
   part "building" "grey" "concrete";
   part "tree" "green" "wood";
   part "road" "black" "asphalt"].

(** An older descriptor lying on the disk. *)
Definition stale : disk :=
  {[ "./town_a.json" := TextFile "latin-1" [JsonText PyNone 2] ]}.
End Town.

(** ** The rest of the module: logging set-up, [__init__] and [__get__] *)

(** *** The [logging] package, as far as the module uses it *)

(** Where a handler writes. *)
Inductive sink : Type :=
| ToFile (filename mode : string)     (* logging.FileHandler(filename, mode) *)
| ToStdout.                           (* logging.StreamHandler(sys.stdout) *)

#[global] Instance sink_eq_dec : EqDecision sink.
Proof. solve_decision. Defined.

Record handler : Type := Handler {
  handler_sink : sink;
  handler_level : Z;
  handler_format : string
}.

(** The root logger, the only logger the module touches. *)
Record logging_state : Type := Logging {
  root_level : Z;
  root_handlers : list handler
}.

Definition NOTSET : Z := 0.
Definition DEBUG : Z := 10.
Definition INFO : Z := 20.
Definition WARNING : Z := 30.

(** The root logger of an interpreter that has configured nothing. *)
Definition interpreter_start : logging_state := Logging WARNING [].

(** The format a handler without formatter uses. *)
Definition default_format : string := "%(message)s".

(** [fmt % record] for the three fields the module's formats name; any other
    character is copied. [skip] counts the characters of a field still to be
    passed over. *)
Fixpoint percent_format (skip : nat) (fmt name levelname message : string)
  : string :=
  match fmt with
  | EmptyString => EmptyString
  | String c rest =>
      match skip with
      | S k => percent_format k rest name levelname message
      | O =>
          if String.prefix "%(name)s" fmt
          then name +:+ percent_format 7 rest name levelname message
          else if String.prefix "%(levelname)s" fmt
          then levelname +:+ percent_format 12 rest name levelname message
          else if String.prefix "%(message)s" fmt
          then message +:+ percent_format 10 rest name levelname message
          else String c (percent_format 0 rest name levelname message)
      end
  end.

Definition terminator : string := String "010"%char "".

(** The handler [logging.StreamHandler(sys.stdout)], as it is made. *)
Definition stdout_handler : handler := Handler ToStdout NOTSET default_format.

(** [logging.basicConfig(filename=.., filemode=.., format=..)]: does nothing
    when the root logger already has a handler. *)
Definition basicConfig (filename filemode format : string) (lg : logging_state)
  : logging_state :=
  match root_handlers lg with
  | [] => Logging (root_level lg) [Handler (ToFile filename filemode) NOTSET format]
  | _ :: _ => lg
  end.

(** Line 6, run when the module is imported. *)
Definition module_import (lg : logging_state) : logging_state :=
  basicConfig "std.log" "w" "%(name)s - %(levelname)s - %(message)s" lg.

(** [logging.getLogger().info(msg)]: what is written, handler by handler. *)
Definition logger_emits (lg : logging_state) (msg : string)
  : list (sink * string) :=
  if (root_level lg <=? INFO)%Z then
    (fun h =>
       (handler_sink h,
        percent_format 0 (handler_format h) "root" "INFO" msg +:+ terminator))
    <$> filter (fun h => (handler_level h <= INFO)%Z) (root_handlers lg)
  else [].

(** The lines that reached one sink. *)
Definition written_to (s : sink) (out : list (sink * string)) : list string :=
  (filter (fun x => x.1 = s) out).*2.

(** *** The class *)

(** An instance. [self.logger] is the root logger, whose state is the
    [logging_state]; [_app] is [None] until [__get__] sets it. *)
Record ModelGenerator (Host : Type) : Type := Generator { _app : option Host }.
Arguments Generator {Host} _.
Arguments _app {Host} _.

(** [ModelGenerator(application)] *)
Definition __init__ {App Host : Type} (application : App) (lg : logging_state)
  : ModelGenerator Host * logging_state :=
  (Generator None,
   Logging DEBUG (root_handlers lg ++ [stdout_handler])).

(** [self.__get__(instance, owner)]: [instance] is [None] when the attribute is
    read on the class. The object returned is [self], so modified. *)
Definition __get__ {Host Owner : Type}
    (self : ModelGenerator Host) (instance : option Host) (owner : Owner)
  : ModelGenerator Host :=
  Generator instance.

(** The logging state after the module was imported and one generator was
    made for each application of a list. *)
Definition generators_made {App : Type} (applications : list App)
    (lg : logging_state) : logging_state :=
  fold_left (fun lg application => (@__init__ App unit application lg).2)
    applications (module_import lg).

(** The attribute read through one host after the other. *)
Definition bound_in_turn {Host Owner : Type} (self : ModelGenerator Host)
    (hosts : list (option Host)) (owner : Owner) : ModelGenerator Host :=
  fold_left (fun self instance => __get__ self instance owner) hosts self.

(** ** More to observe in a call *)

Section MoreProjections.
Context {Mesh : Type}.

Definition info_of (ev : event Mesh) : option string :=
  match ev with
  | EvLogInfo msg => Some msg
  | _ => None
  end.

(** The anchor handed to a generation call. *)
Definition anchor_of (ev : event Mesh) : option (list num) :=
  match ev with
  | EvGetTerrain latlon _ _ => Some latlon
  | EvGenerateBuildings latlon _ _ => Some latlon
  | EvGenerateTrees latlon _ _ => Some latlon
  | EvCreateRoads latlon _ _ _ _ _ _ => Some latlon
  | _ => None
  end.

Definition cad_path_of (ev : event Mesh) : option string :=
  match ev with
  | EvConstruct _ cad_path => Some cad_path
  | _ => None
  end.

Definition grid_size_of (ev : event Mesh) : option Z :=
  match ev with
  | EvGetTerrain _ _ grid_size => Some grid_size
  | _ => None
  end.

Definition messages (l : list (event Mesh)) := omap info_of l.
Definition anchors (l : list (event Mesh)) := omap anchor_of l.
Definition cad_paths (l : list (event Mesh)) := omap cad_path_of l.
Definition grid_sizes (l : list (event Mesh)) := omap grid_size_of l.

(** What the handlers write during a call with log [l]. *)
Definition deliveries (lg : logging_state) (l : list (event Mesh))
  : list (sink * string) :=
  messages l ≫= logger_emits lg.
End MoreProjections.

(** The message logged when a provider's stage starts. *)
Definition stage_message (p : provider) : option string :=
  match p with
  | Terrain => None
  | Buildings => Some "Generating Building Geometry"
  | Trees => Some "Generating Tree Geometry"
  | Roads => Some "Generating Road Geometry"
  end.

(** The colour and material recorded with a provider's part. *)
Definition color_of (p : provider) : string :=
  match p with
  | Terrain => "brown"
  | Buildings => "grey"
  | Trees => "green"
  | Roads => "black"
  end.

Definition material_of (p : provider) : string :=
  match p with
  | Terrain => "earth"
  | Buildings => "concrete"
  | Trees => "wood"
  | Roads => "asphalt"
  end.

Section Platforms.
Context {E Mesh Prep : Type}.
Variable osm : platform E Mesh Prep.

(** The generation call of provider [p], with the arguments of the method's
    text around the terrain mesh and the radius. *)
Definition generation (a : args) (p : provider) (prep : Prep)
    (terrain_mesh : Mesh) (max_radius : num) (d : disk)
  : (E + geo Mesh) * disk :=
  match p with
  | Terrain => get_terrain osm prep (latitude_longitude a) max_radius 30 d
  | Buildings =>
      generate_buildings osm prep (latitude_longitude a) terrain_mesh max_radius d
  | Trees =>
      generate_trees osm prep (latitude_longitude a) terrain_mesh max_radius d
  | Roads =>
      create_roads osm prep (latitude_longitude a) terrain_mesh max_radius
        (z_offset a) (road_step a) (road_width a) (save_nodes a) d
  end.

(** A platform whose providers always return. *)
Definition answering : Prop :=
  (forall p cad_path d, exists prep d', construct osm p cad_path d = (inr prep, d')) /\
  (forall prep latlon r g d, exists x d',
     get_terrain osm prep latlon r g d = (inr x, d')) /\
  (forall prep latlon m r d, exists x d',
     generate_buildings osm prep latlon m r d = (inr x, d')) /\
  (forall prep latlon m r d, exists x d',
     generate_trees osm prep latlon m r d = (inr x, d')) /\
  (forall prep latlon m r z s w n d, exists x d',
     create_roads osm prep latlon m r z s w n d = (inr x, d')).

(** A platform none of whose operations raises or refuses: the providers
    return, every [open] is granted and every [json.dump] goes through. *)
Definition reliable : Prop :=
  answering /\
  (forall d path, open_refused osm d path = None) /\
  (forall d obj path, dump_refused osm d obj path = None).

(** A platform none of whose operations changes the file at [path]. *)
Definition keeps (path : string) : Prop :=
  (forall p cad_path d, (construct osm p cad_path d).2 !! path = d !! path) /\
  (forall prep latlon r g d,
     (get_terrain osm prep latlon r g d).2 !! path = d !! path) /\
  (forall prep latlon m r d,
     (generate_buildings osm prep latlon m r d).2 !! path = d !! path) /\
  (forall prep latlon m r d,
     (generate_trees osm prep latlon m r d).2 !! path = d !! path) /\
  (forall prep latlon m r z s w n d,
     (create_roads osm prep latlon m r z s w n d).2 !! path = d !! path).
End Platforms.

(** ** Paths that may lead to one file *)

(** [path.split("/")] *)
Fixpoint components (path : string) : list string :=
  match path with
  | "" => [""]
  | String c rest =>
      if Ascii.eqb c "/"%char then "" :: components rest
      else match components rest with
           | name :: names => String c name :: names
           | [] => [String c ""]
           end
  end.

(** One component further down from the root: the directories passed so far,
    the last one first. An empty component and "." stay where they are,
    ".." goes one up (and stays at the root). *)
Definition descend (passed : list string) (name : string) : list string :=
  if (String.eqb name "" || String.eqb name ".")%bool then passed
  else if String.eqb name ".." then tail passed
  else name :: passed.

(** Where a path leads from the working directory [cwd], read the way
    [os.path.abspath] reads it (but for a leading double slash, taken here
    for a single one): joined to [cwd] unless it is absolute, then followed
    component by component from the root. ["a.json"], ["./a.json"],
    ["././a.json"] and ["x/../a.json"] lead to one place, and so does
    ["/srv/a.json"] when [cwd] is ["/srv"]. *)
Definition leads_to (cwd path : string) : list string :=
  fold_left descend (components (os_path_join cwd path)) [].

(** A relation between paths that holds at least of those that lead to one
    place from [cwd]: whatever the file system may take for "these two paths
    are one file", links included. *)
Definition aliasing (cwd : string) (same_file : string -> string -> Prop) : Prop :=
  forall p q, leads_to cwd p = leads_to cwd q -> same_file p q.

(** Whether the call multiplies a radius that cannot be multiplied. *)
Definition overflows (a : args) : bool :=
  (include_osm_buildings a || include_osm_trees a) &&
  match py_mul_float (terrain_radius a) float_0_8 with
  | Some _ => false
  | None => true
  end.

(** ** A survey office: providers that only answer *)

Module Survey.
(** Providers that return a file name and a mesh number and save nothing;
    [errno], when given, is what [open] is refused with, and [error] what
    [json.dump] raises for. *)
Definition answers (name : string) (handle : Z) (d : disk)
  : (string + geo Z) * disk :=
  (inr (Geo name handle), d).

Definition office (errno : option Z) (error : option dump_error)
  : platform string Z string := {|
  construct p cad_path d := (inr cad_path, d);
  get_terrain prep latlon max_radius grid_size d := answers "terrain.stl" 7 d;
  generate_buildings prep latlon terrain_mesh max_radius d :=
    answers "buildings.stl" (terrain_mesh + 1) d;
  generate_trees prep latlon terrain_mesh max_radius d :=
    answers "trees.stl" (terrain_mesh + 2) d;
  create_roads prep latlon terrain_mesh max_radius z step width save d :=
    answers "roads.stl" (terrain_mesh + 3) d;
  open_refused d path := errno;
  dump_refused d obj path := error
|}.

(** The office on a day when every dump goes through. *)
Definition osm (errno : option Z) : platform string Z string :=
  office errno None.

Definition registry : list (string * pyobj) :=
  [("terrain", part_dict "terrain.stl" "brown" "earth");
   ("buildings", part_dict "buildings.stl" "grey" "concrete");
   ("trees", part_dict "trees.stl" "green" "wood");
   ("roads", part_dict "roads.stl" "black" "asphalt")].

(** A radius no float can hold. *)
Definition vast : args :=
  signature Town.anchor
    (Keywords (Some "vast") (Some (NInt (2 ^ 1024))) None None None None None
       None None None None None).
End Survey.

(** * Properties *)

#[local] Arguments py_mul_float : simpl never.
#[local] Arguments os_path_join : simpl never.
#[local] Arguments constructions : simpl never.
#[local] Arguments generations : simpl never.
#[local] Arguments radii : simpl never.
#[local] Arguments terrain_meshes : simpl never.
#[local] Arguments calls_to : simpl never.
#[local] Arguments opens : simpl never.
#[local] Arguments dumps : simpl never.

(** ** Dictionaries *)

Section DictFacts.
Context {V : Type}.
Implicit Types (d : list (string * V)) (k : string) (v : V).

Lemma dict_get_setitem_eq k v d : dict_get k (dict_setitem k v d) = Some v.
Proof.
  induction d as [|[k' v'] d IH]; simpl.
  - by rewrite String.eqb_refl.
  - destruct (String.eqb k' k) eqn:Hk; simpl; rewrite Hk; done.
Qed.

Lemma dict_get_setitem_ne k k' v d :
  k <> k' -> dict_get k' (dict_setitem k v d) = dict_get k' d.
Proof.
  intros Hne. apply String.eqb_neq in Hne.
  induction d as [|[k0 v0] d IH]; simpl.
  - by rewrite Hne.
  - destruct (String.eqb k0 k) eqn:Hk; simpl.
    + apply String.eqb_eq in Hk. subst k0. by rewrite Hne.
    + by rewrite IH.
Qed.

Lemma dict_keys_setitem_new k v d :
  dict_get k d = None -> dict_keys (dict_setitem k v d) = dict_keys d ++ [k].
Proof.
  unfold dict_keys. induction d as [|[k0 v0] d IH]; simpl; [done|].
  destruct (String.eqb k0 k); [done|]. intros H. csimpl. f_equal. auto.
Qed.

Lemma dict_contains_keys k d : dict_contains k d = true <-> k ∈ dict_keys d.
Proof.
  unfold dict_contains, dict_keys. induction d as [|[k0 v0] d IH]; csimpl.
  - split; [done|]. intros H. by apply elem_of_nil in H.
  - rewrite elem_of_cons. destruct (String.eqb k0 k) eqn:Hk.
    + apply String.eqb_eq in Hk. split; [by left|done].
    + apply String.eqb_neq in Hk. rewrite IH.
      split; [by right|]. by intros [->|].
Qed.
End DictFacts.

(** ** Paths *)

Lemma startswith_slash_json (name : string) :
  startswith_char (name +:+ ".json") "/"%char = startswith_char name "/"%char.
Proof. destruct name; reflexivity. Qed.



(** ** Running the method symbolically *)

(** The method is straight-line code over at most eight external calls: a run
    is settled by the answers of the platform, one after the other. *)
Ltac unfold_run :=
  unfold result, log, disk_after, run, import_from_openstreet_map,
    new, logger_info, open_w, json_dump,
    mbind, M_bind, mret, M_ret, extern, emit, arith, raise in *.

Ltac is_platform_call x :=
  lazymatch x with
  | construct _ _ _ _ => idtac
  | get_terrain _ _ _ _ _ _ => idtac
  | generate_buildings _ _ _ _ _ _ => idtac
  | generate_trees _ _ _ _ _ _ => idtac
  | create_roads _ _ _ _ _ _ _ _ _ _ => idtac
  end.

Ltac is_partial_op x :=
  lazymatch x with
  | open_refused _ _ _ => idtac
  | dump_refused _ _ _ _ => idtac
  | py_mul_float _ _ => idtac
  end.

Ltac answer :=
  match goal with
  | |- context [match ?x with _ => _ end] =>
      first [ is_platform_call x; destruct x as [[?|?] ?] eqn:?
            | is_partial_op x; destruct x as [?|] eqn:?
            | is_var x; destruct x ]
  end.

Ltac symbolic_run a :=
  unfold_run;
  destruct a as [latlon name radius buildings roads trees ? ? z step width ? save];
  repeat first [progress simpl | answer].

(** What is left of a run that was assumed to complete. *)
Ltac completed :=
  try discriminate;
  let H := fresh in intros H; injection H as <-.

Section Claims.
Context {E Mesh Prep : Type}.
Variable osm : platform E Mesh Prep.
Implicit Types (a : args) (d : disk) (scene : pyobj) (p : provider).

(** The descriptor, once opened and dumped, is what the file holds. *)
Lemma lookup_dumped (path encoding : string) (t : written) d :
  alter (append_text t) path (<[path := TextFile encoding []]> d) !! path
  = Some (TextFile encoding [t]).
Proof. by rewrite lookup_alter_eq, lookup_insert_eq. Qed.

(** What every call that completes has done at its end: built the descriptor,
    opened one file and dumped the descriptor into it. *)
Lemma descriptor_dumped a d scene :
  result osm a d = inr scene ->
  (exists parts, scene = descriptor a parts) /\
  opens (log osm a d) = [(json_path a, "w", "utf-8")] /\
  dumps (log osm a d) = [(scene, json_path a, 4)] /\
  disk_after osm a d !! json_path a
  = Some (TextFile "utf-8" [JsonText scene 4]).
Proof.
  unfold json_path, descriptor. symbolic_run a; completed.
  all: repeat apply conj; [by eexists|reflexivity..|apply lookup_dumped].
Qed.

Lemma descriptor_echoes a parts : echoes a (descriptor a parts).
Proof. repeat split. Qed.

(** C1. A call that completes returns a descriptor whose parts registry
    always has the key "terrain", has each of "buildings", "trees" and
    "roads" exactly when its flag was true, and has no other key; with the
    three flags false it has one entry. *)
Theorem parts_registry_keys a d scene :
  result osm a d = inr scene ->
  exists parts,
    py_field "parts" scene = Some (PyDict parts) /\
    dict_contains "terrain" parts = true /\
    dict_contains "buildings" parts = include_osm_buildings a /\
    dict_contains "trees" parts = include_osm_trees a /\
    dict_contains "roads" parts = including_osm_roads a /\
    dict_keys parts = part_key <$> requested a /\
    (include_osm_buildings a = false -> include_osm_trees a = false ->
     including_osm_roads a = false -> length parts = 1%nat).
Proof.
  symbolic_run a; completed.
  all: eexists; repeat apply conj; try reflexivity.
  all: intros; try discriminate; reflexivity.
Qed.


(** In a call that completes, each requested provider is handed one radius
    and the others none. *)
Lemma provider_radii_once a d scene p :
  result osm a d = inr scene ->
  length (radii p (log osm a d)) = if decide (p ∈ requested a) then 1%nat else 0%nat.
Proof.
  symbolic_run a; completed.
  all: destruct p; reflexivity.
Qed.

(** C3. In a call that completes, the fields [center_lat_lon], [radius],
    [include_buildings], [include_roads] and [include_trees] of the returned
    descriptor, and of the object the JSON file holds, are the arguments
    [latitude_longitude], [terrain_radius] and the three flags as passed. *)
Theorem descriptor_echoes_arguments a d scene :
  result osm a d = inr scene ->
  echoes a scene /\
  exists obj,
    disk_after osm a d !! json_path a
    = Some (TextFile "utf-8" [JsonText obj 4]) /\
    echoes a obj.
Proof.
  intros Hrun.
  destruct (descriptor_dumped a d scene Hrun) as ((parts & ->) & _ & _ & Hfile).
  split; [apply descriptor_echoes|].
  eexists. split; [exact Hfile|apply descriptor_echoes].
Qed.

(** C4. If the terrain provider raises, the method raises that same
    exception, opens no file and dumps nothing: it leaves the disk as the
    provider left it. *)
Theorem terrain_failure_propagates a d prep d0 e d1 :
  construct osm Terrain "." d = (inr prep, d0) ->
  get_terrain osm prep (latitude_longitude a) (terrain_radius a) 30 d0
  = (inl e, d1) ->
  result osm a d = inl (Raised e) /\
  opens (log osm a d) = [] /\
  dumps (log osm a d) = [] /\
  disk_after osm a d = d1 /\
  log osm a d =
    [EvConstruct Terrain ".";
     EvGetTerrain (latitude_longitude a) (terrain_radius a) 30].
Proof.
  intros Hprep Hgeo. unfold_run. simpl.
  rewrite Hprep. simpl. rewrite Hgeo. done.
Qed.

(** The same when it is the constructor [TerrainPrep(..)] that raises. *)
Lemma terrain_constructor_failure_propagates a d e d0 :
  construct osm Terrain "." d = (inl e, d0) ->
  result osm a d = inl (Raised e) /\
  opens (log osm a d) = [] /\
  disk_after osm a d = d0.
Proof. intros Hprep. unfold_run. simpl. rewrite Hprep. done. Qed.

(** C5. In every call the first external call makes the terrain provider,
    whatever the flags; as soon as that constructor has returned, the next
    external call is the terrain generation, with the anchor, the radius and
    the grid of 30, before any other provider is touched (only when the
    constructor itself raises is there no generation at all, and then nothing
    else either). Providers are constructed, and their generation methods
    called, in the order terrain, buildings, trees, roads, leaving out those
    whose flag is false (and, when an exception ends the call, those not yet
    reached), each generation right after its constructor; a call that
    completes has made and called each requested one, and a call that raises
    has called each requested one too, unless what it raises is the exception
    of a provider or the [OverflowError] of a radius that cannot be
    multiplied; and the terrain mesh handed to the buildings, trees and roads
    calls is the mesh that the terrain call returned. *)
Theorem provider_order a d :
  head (log osm a d) = Some (EvConstruct Terrain ".") /\
  (forall prep d0, construct osm Terrain "." d = (inr prep, d0) ->
     log osm a d !! 1%nat
     = Some (EvGetTerrain (latitude_longitude a) (terrain_radius a) 30) /\
     head (generations (log osm a d)) = Some Terrain) /\
  (forall e d0, construct osm Terrain "." d = (inl e, d0) ->
     result osm a d = inl (Raised e) /\
     log osm a d = [EvConstruct Terrain "."]) /\
  constructions (log osm a d) `prefix_of` requested a /\
  generations (log osm a d) `prefix_of` requested a /\
  generations (log osm a d) `prefix_of` constructions (log osm a d) /\
  (length (constructions (log osm a d))
   <= S (length (generations (log osm a d))))%nat /\
  (forall scene, result osm a d = inr scene ->
     constructions (log osm a d) = requested a /\
     generations (log osm a d) = requested a) /\
  (forall e, result osm a d = inl e ->
     generations (log osm a d) = requested a \/
     (exists err, e = Raised err) \/
     (e = OverflowError /\
      (include_osm_buildings a || include_osm_trees a = true)%bool /\
      py_mul_float (terrain_radius a) float_0_8 = None)) /\
  (forall m, m ∈ terrain_meshes (log osm a d) ->
     exists prep d0 terrain_geo d1,
       construct osm Terrain "." d = (inr prep, d0) /\
       get_terrain osm prep (latitude_longitude a) (terrain_radius a) 30 d0
       = (inr terrain_geo, d1) /\
       m = mesh terrain_geo).
Proof.
  symbolic_run a.
  all: repeat apply conj; try reflexivity.
  all: try (eexists; reflexivity).
  all: try (unfold constructions, generations; simpl; lia).
  all: try (intros ? ? [=]; subst; split; reflexivity).
  all: try (intros ? [=]; subst; split; reflexivity).
  all: try (intros ? [=]; done).
  all: try (intros ? [= <-]; first
              [ by left
              | by right; left; eexists
              | by right; right ]).
  all: unfold terrain_meshes; simpl; intros m Hm.
  all: repeat (apply elem_of_cons in Hm as [->|Hm]; [by eauto 8|]).
  all: by apply elem_of_nil in Hm.
Qed.

(** When a provider raises, the method raises that same exception and has
    neither opened a file nor dumped anything. *)
Lemma provider_failure_propagates a d e :
  result osm a d = inl (Raised e) ->
  opens (log osm a d) = [] /\ dumps (log osm a d) = [].
Proof.
  symbolic_run a.
  all: try discriminate.
  all: try (by split).
  all: match goal with |- context [exn_of_dump_error ?x] => destruct x end.
  all: discriminate.
Qed.

(** The log only grows: a call from a world with a past appends to it what it
    logs from an empty log. *)
Lemma log_extends a d (past : list (event Mesh)) :
  import_from_openstreet_map osm a (World d past) =
    ((run osm a d).1,
     World (files (run osm a d).2) (past ++ events (run osm a d).2)).
Proof.
  symbolic_run a.
  all: rewrite <- ?app_assoc; reflexivity.
Qed.


(** C7. Each parameter left out takes the default of the signature:
    [env_name="default"], [terrain_radius=500], the three inclusion flags
    [True], [import_in_aedt=False], [plot_before_importing=False],
    [z_offset=2], [road_step=3], [road_width=8],
    [create_lightweigth_part=True], [save_nodes=False]. *)
Theorem signature_defaults latlon :
  signature latlon no_keywords =
    {| latitude_longitude := latlon;
       env_name := "default";
       terrain_radius := NInt 500;
       include_osm_buildings := true;
       including_osm_roads := true;
       include_osm_trees := true;
       import_in_aedt := false;
       plot_before_importing := false;
       z_offset := NInt 2;
       road_step := NInt 3;
       road_width := NInt 8;
       create_lightweigth_part := true;
       save_nodes := false |} /\
  call osm latlon no_keywords =
    import_from_openstreet_map osm
      (Args latlon "default" (NInt 500) true true true false false
         (NInt 2) (NInt 3) (NInt 8) true false) /\
  forall kw,
    (kw_env_name kw = None -> env_name (signature latlon kw) = "default") /\
    (kw_terrain_radius kw = None ->
     terrain_radius (signature latlon kw) = NInt 500) /\
    (kw_include_osm_buildings kw = None ->
     include_osm_buildings (signature latlon kw) = true) /\
    (kw_including_osm_roads kw = None ->
     including_osm_roads (signature latlon kw) = true) /\
    (kw_include_osm_trees kw = None ->
     include_osm_trees (signature latlon kw) = true) /\
    (kw_import_in_aedt kw = None ->
     import_in_aedt (signature latlon kw) = false) /\
    (kw_plot_before_importing kw = None ->
     plot_before_importing (signature latlon kw) = false) /\
    (kw_z_offset kw = None -> z_offset (signature latlon kw) = NInt 2) /\
    (kw_road_step kw = None -> road_step (signature latlon kw) = NInt 3) /\
    (kw_road_width kw = None -> road_width (signature latlon kw) = NInt 8) /\
    (kw_create_lightweigth_part kw = None ->
     create_lightweigth_part (signature latlon kw) = true) /\
    (kw_save_nodes kw = None -> save_nodes (signature latlon kw) = false).
Proof.
  split; [reflexivity|]. split; [reflexivity|].
  intros kw. repeat split; simpl; by intros ->.
Qed.

(** A keyword that is given is used as given. *)
Lemma signature_keeps_keywords latlon name radius b r t i pl z s w l n :
  signature latlon
    (Keywords (Some name) (Some radius) (Some b) (Some r) (Some t) (Some i)
       (Some pl) (Some z) (Some s) (Some w) (Some l) (Some n))
  = Args latlon name radius b r t i pl z s w l n.
Proof. reflexivity. Qed.

(** C8. In a call that completes with the roads flag true, the roads
    provider is called once, with the terrain mesh that the terrain call
    returned, [terrain_radius], and [z_offset], [road_step], [road_width] and
    [save_nodes] as passed; the file name it returns is the one recorded
    under "roads" in the registry. *)
Theorem roads_call_arguments a d scene :
  result osm a d = inr scene ->
  including_osm_roads a = true ->
  exists terrain_prep d0 terrain_geo d1 road_prep d2 road_geo d3 parts,
    construct osm Terrain "." d = (inr terrain_prep, d0) /\
    get_terrain osm terrain_prep
      (latitude_longitude a) (terrain_radius a) 30 d0
    = (inr terrain_geo, d1) /\
    calls_to Roads (log osm a d) =
      [EvCreateRoads (latitude_longitude a) (mesh terrain_geo)
         (terrain_radius a)
         (z_offset a) (road_step a) (road_width a) (save_nodes a)] /\
    create_roads osm road_prep (latitude_longitude a) (mesh terrain_geo)
      (terrain_radius a)
      (z_offset a) (road_step a) (road_width a) (save_nodes a) d2
    = (inr road_geo, d3) /\
    py_field "parts" scene = Some (PyDict parts) /\
    dict_get "roads" parts
    = Some (part_dict (file_name road_geo) "black" "asphalt").
Proof.
  symbolic_run a; completed; intros Hroads; try discriminate Hroads.
  all: do 9 eexists; repeat apply conj; try eassumption; reflexivity.
Qed.

(** C9. A call that completes returns the descriptor: the dictionary with
    [name] the environment name, [version] 1, [type] "environment", the
    anchor, the radius, the three flags and the parts registry, in that
    order; and that dictionary is the object dumped to the JSON file. *)
Theorem returns_serialized_descriptor a d scene :
  result osm a d = inr scene ->
  (exists parts, scene = descriptor a parts) /\
  dumps (log osm a d) = [(scene, json_path a, 4)] /\
  disk_after osm a d !! json_path a
  = Some (TextFile "utf-8" [JsonText scene 4]).
Proof.
  intros Hrun.
  destruct (descriptor_dumped a d scene Hrun) as (Hscene & _ & Hdump & Hfile).
  auto.
Qed.

(** C10. Two calls whose arguments differ at most in [import_in_aedt],
    [plot_before_importing] and [create_lightweigth_part] have the same
    outcome from the same world: the same result or exception, the same
    external calls with the same arguments, the same files. *)
Theorem unused_parameters_ignored a b (w : world Mesh) :
  same_but_unused a b ->
  import_from_openstreet_map osm a w = import_from_openstreet_map osm b w.
Proof.
  destruct a, b. unfold same_but_unused. simpl.
  intros (-> & -> & -> & -> & -> & -> & -> & -> & -> & ->).
  reflexivity.
Qed.
End Claims.

(** ** The claims at work in the town *)

(** [500 * 0.8] is [400.0]; the product is a binary64 one. *)
Example radius_500 : py_mul_float (NInt 500) float_0_8 = Some (NFloat 400).
Proof. reflexivity. Qed.

Example radius_3 :
  py_mul_float (NInt 3) float_0_8 = Some (NFloat 0x1.3333333333334p+1).
Proof. reflexivity. Qed.

(** An int radius beyond the floats ends the call in the buildings stage,
    after the terrain has been generated. *)
Example radius_too_large :
  run (Town.osm None)
    (signature Town.anchor
       (Keywords None (Some (NInt (2 ^ 1024))) None None None None None None
          None None None None)) ∅
  = (inl OverflowError,
     World {[ "./terrain.stl" := BinaryFile [] ]}
       [EvConstruct Terrain "."; EvGetTerrain Town.anchor (NInt (2 ^ 1024)) 30;
        EvLogInfo "Generating Building Geometry"; EvConstruct Buildings "."]).
Proof. vm_compute. reflexivity. Qed.

(** The whole log of a call with every default. *)
Example town_log :
  log (Town.osm None) (Town.named "town_a") ∅ =
    [EvConstruct Terrain ".";
     EvGetTerrain Town.anchor (NInt 500) 30;
     EvLogInfo "Generating Building Geometry";
     EvConstruct Buildings ".";
     EvGenerateBuildings Town.anchor 1 (NFloat 400);
     EvLogInfo "Generating Tree Geometry";
     EvConstruct Trees ".";
     EvGenerateTrees Town.anchor 1 (NFloat 400);
     EvLogInfo "Generating Road Geometry";
     EvConstruct Roads ".";
     EvCreateRoads Town.anchor 1 (NInt 500) (NInt 2) (NInt 3) (NInt 8) false;
     EvOpen "./town_a.json" "w" "utf-8";
     EvJsonDump (descriptor (Town.named "town_a") Town.full_registry)
       "./town_a.json" 4;
     EvLogInfo "Done..."].
Proof. reflexivity. Qed.

(** [env_name="town_a"] names the file [town_a.json], in the directory ".". *)
Example town_a_json : json_path (Town.named "town_a") = "./town_a.json".
Proof. reflexivity. Qed.

(** C1 at a call with the three flags false: the registry is the terrain. *)
Lemma parts_registry_keys_terrain_only :
  result (Town.osm None) (Town.only "hamlet" false false false) ∅
  = inr (descriptor (Town.only "hamlet" false false false)
           [("terrain", part_dict "./terrain.stl" "brown" "earth")]) /\
  exists parts,
    py_field "parts"
      (descriptor (Town.only "hamlet" false false false)
         [("terrain", part_dict "./terrain.stl" "brown" "earth")])
    = Some (PyDict parts) /\
    dict_keys parts = ["terrain"] /\
    length parts = 1%nat.
Proof.
  assert (Hrun :
    result (Town.osm None) (Town.only "hamlet" false false false) ∅
    = inr (descriptor (Town.only "hamlet" false false false)
             [("terrain", part_dict "./terrain.stl" "brown" "earth")]))
    by reflexivity.
  split; [exact Hrun|].
  destruct (parts_registry_keys (Town.osm None) _ ∅ _ Hrun)
    as (parts & Hparts & _ & _ & _ & _ & Hkeys & Hone).
  exists parts. split; [exact Hparts|]. split; [exact Hkeys|].
  apply Hone; reflexivity.
Defined.

(** C1 at a call with buildings and roads but no trees. *)
Example registry_without_trees :
  result (Town.osm None) (Town.only "grove" true true false) ∅
  = inr (descriptor (Town.only "grove" true true false)
           [("terrain", part_dict "./terrain.stl" "brown" "earth");
            Town.part "building" "grey" "concrete";
            Town.part "road" "black" "asphalt"]).
Proof. reflexivity. Qed.


(** C3 at the town. *)
Lemma descriptor_echoes_arguments_town :
  echoes (Town.named "town_a")
    (descriptor (Town.named "town_a") Town.full_registry) /\
  exists obj,
    disk_after (Town.osm None) (Town.named "town_a") ∅
      !! json_path (Town.named "town_a")
    = Some (TextFile "utf-8" [JsonText obj 4]) /\
    echoes (Town.named "town_a") obj.
Proof.
  apply (descriptor_echoes_arguments (Town.osm None) (Town.named "town_a") ∅).
  reflexivity.
Defined.

(** C4 at the town without elevation data. *)
Lemma terrain_failure_propagates_town :
  result (Town.osm (Some Terrain)) (Town.named "town_a") Town.stale
  = inl (Raised "no elevation data") /\
  opens (log (Town.osm (Some Terrain)) (Town.named "town_a") Town.stale) = [] /\
  dumps (log (Town.osm (Some Terrain)) (Town.named "town_a") Town.stale) = [] /\
  disk_after (Town.osm (Some Terrain)) (Town.named "town_a") Town.stale
  = Town.stale /\
  log (Town.osm (Some Terrain)) (Town.named "town_a") Town.stale =
    [EvConstruct Terrain "."; EvGetTerrain Town.anchor (NInt 500) 30].
Proof.
  apply (terrain_failure_propagates (Town.osm (Some Terrain))
           (Town.named "town_a") Town.stale "." Town.stale
           "no elevation data" Town.stale); reflexivity.
Defined.



(** C8 at the town. *)
Lemma roads_call_arguments_town :
  exists terrain_prep d0 terrain_geo d1 road_prep d2 road_geo d3 parts,
    construct (Town.osm None) Terrain "." ∅ = (inr terrain_prep, d0) /\
    get_terrain (Town.osm None) terrain_prep Town.anchor (NInt 500) 30 d0
    = (inr terrain_geo, d1) /\
    calls_to Roads (log (Town.osm None) (Town.named "town_a") ∅) =
      [EvCreateRoads Town.anchor (mesh terrain_geo) (NInt 500)
         (NInt 2) (NInt 3) (NInt 8) false] /\
    create_roads (Town.osm None) road_prep Town.anchor (mesh terrain_geo)
      (NInt 500) (NInt 2) (NInt 3) (NInt 8) false d2
    = (inr road_geo, d3) /\
    py_field "parts" (descriptor (Town.named "town_a") Town.full_registry)
    = Some (PyDict parts) /\
    dict_get "roads" parts
    = Some (part_dict (file_name road_geo) "black" "asphalt").
Proof.
  apply (roads_call_arguments (Town.osm None) (Town.named "town_a") ∅
           (descriptor (Town.named "town_a") Town.full_registry));
    reflexivity.
Defined.

(** C9 at the town. *)
Lemma returns_serialized_descriptor_town :
  (exists parts,
     descriptor (Town.named "town_a") Town.full_registry
     = descriptor (Town.named "town_a") parts) /\
  dumps (log (Town.osm None) (Town.named "town_a") ∅)
  = [(descriptor (Town.named "town_a") Town.full_registry,
      json_path (Town.named "town_a"), 4)] /\
  disk_after (Town.osm None) (Town.named "town_a") ∅
    !! json_path (Town.named "town_a")
  = Some (TextFile "utf-8"
            [JsonText (descriptor (Town.named "town_a") Town.full_registry) 4]).
Proof.
  apply (returns_serialized_descriptor (Town.osm None) (Town.named "town_a") ∅).
  reflexivity.
Defined.

(** C10 at the town: the three unused arguments flipped. *)
Lemma unused_parameters_ignored_town :
  import_from_openstreet_map (Town.osm None)
    (Args Town.anchor "town_a" (NInt 500) true true true
       false false (NInt 2) (NInt 3) (NInt 8) true false)
    (World Town.stale [])
  = import_from_openstreet_map (Town.osm None)
      (Args Town.anchor "town_a" (NInt 500) true true true
         true true (NInt 2) (NInt 3) (NInt 8) false false)
      (World Town.stale []).
Proof.
  apply (unused_parameters_ignored (Town.osm None)).
  repeat split.
Defined.

(** The order of the providers, at the town: the terrain is generated by the
    second external call, and all four providers are called in turn. *)
Lemma provider_order_town :
  log (Town.osm None) (Town.named "town_a") ∅ !! 1%nat
  = Some (EvGetTerrain Town.anchor (NInt 500) 30) /\
  head (generations (log (Town.osm None) (Town.named "town_a") ∅)) = Some Terrain /\
  generations (log (Town.osm None) (Town.named "town_a") ∅)
  = [Terrain; Buildings; Trees; Roads].
Proof.
  destruct (provider_order (Town.osm None) (Town.named "town_a") ∅)
    as (_ & Hterrain & _ & _ & _ & _ & _ & Hdone & _ & _).
  destruct (Hterrain "." ∅ eq_refl) as (Hsecond & Hfirst).
  destruct (Hdone (descriptor (Town.named "town_a") Town.full_registry) eq_refl)
    as (_ & Hall).
  repeat split; assumption.
Defined.

(** When it is the trees provider that raises, the terrain and the buildings
    have been generated, and the roads have not been touched. *)
Example trees_failure_order :
  generations (log (Town.osm (Some Trees)) (Town.named "town_a") ∅)
  = [Terrain; Buildings; Trees] /\
  constructions (log (Town.osm (Some Trees)) (Town.named "town_a") ∅)
  = [Terrain; Buildings; Trees].
Proof. split; reflexivity. Qed.

(** * More properties of the module *)

#[local] Arguments messages : simpl never.
#[local] Arguments anchors : simpl never.
#[local] Arguments cad_paths : simpl never.
#[local] Arguments grid_sizes : simpl never.
#[local] Arguments requested : simpl never.

(** A membership in a list that has been computed. *)
Ltac in_computed H :=
  repeat (apply elem_of_cons in H as [H|H]; [subst; try done|]);
  try (apply elem_of_nil in H; contradiction).

Section MoreClaims.
Context {E Mesh Prep : Type}.
Variable osm : platform E Mesh Prep.
Implicit Types (a : args) (d : disk) (scene : pyobj) (p : provider).

(** X1. Registry entries. In a call that completes, the registry entry of every
    requested provider is the file name that provider's generation call
    returned, with the colour and the material of its category: brown earth,
    grey concrete, green wood, black asphalt. *)
Theorem registry_entries a d scene p :
  result osm a d = inr scene ->
  p ∈ requested a ->
  exists parts prep terrain_mesh max_radius d0 part_geo d1,
    py_field "parts" scene = Some (PyDict parts) /\
    generation osm a p prep terrain_mesh max_radius d0 = (inr part_geo, d1) /\
    dict_get (part_key p) parts
    = Some (part_dict (file_name part_geo) (color_of p) (material_of p)).
Proof.
  symbolic_run a; completed; unfold requested; simpl; intros Hp.
  all: in_computed Hp.
  all: match goal with
       | H : get_terrain _ _ _ _ _ _ = (inr ?g, _) |- _ =>
           eexists _, _, (mesh g)
       end.
  all: do 4 eexists; repeat apply conj; [reflexivity|eassumption|reflexivity].
Qed.

(** X2. Arguments handed on. In every call, each generation call receives the
    anchor as passed, each provider is constructed with the output path ".",
    and the terrain is asked for on a grid of 30; in a call that completes
    there is one such anchor and one such path per requested provider. *)
Theorem arguments_handed_on a d :
  (forall latlon, latlon ∈ anchors (log osm a d) ->
     latlon = latitude_longitude a) /\
  (forall cad_path, cad_path ∈ cad_paths (log osm a d) -> cad_path = ".") /\
  (forall grid_size, grid_size ∈ grid_sizes (log osm a d) -> grid_size = 30) /\
  (forall scene, result osm a d = inr scene ->
     anchors (log osm a d)
     = replicate (length (requested a)) (latitude_longitude a) /\
     cad_paths (log osm a d) = replicate (length (requested a)) "." /\
     grid_sizes (log osm a d) = [30]).
Proof.
  symbolic_run a.
  all: repeat apply conj.
  all: try (intros ? [=]; done).
  all: unfold anchors, cad_paths, grid_sizes; simpl; intros x H; in_computed H.
Qed.

(** X3. Progress messages. The messages a call logs are, in order, those of the
    stages it reached; "Done..." is logged exactly when the call completes,
    and then every requested stage's message precedes it. *)
Theorem progress_messages a d :
  messages (log osm a d) `prefix_of`
    omap stage_message (requested a) ++ ["Done..."] /\
  ("Done..." ∈ messages (log osm a d) <-> exists scene, result osm a d = inr scene) /\
  (forall scene, result osm a d = inr scene ->
     messages (log osm a d) = omap stage_message (requested a) ++ ["Done..."]).
Proof.
  symbolic_run a.
  all: unfold messages, requested; simpl.
  all: split; [by eexists|].
  all: split; [|intros ? [=]; done].
  all: split.
  all: try (intros (? & [=]); fail).
  all: try (intros _; set_solver).
  all: try (intros H; by eexists).
  all: intros H; in_computed H.
Qed.
End MoreClaims.

(** The providers of an answering platform never raise. *)
Ltac answered A :=
  destruct A as (Rc & Rt & Rb & Rr & Rd);
  repeat match goal with
  | H : construct _ ?p ?c ?d = (inl _, _) |- _ =>
      destruct (Rc p c d) as (? & ? & Hr); rewrite Hr in H; discriminate H
  | H : get_terrain _ ?x ?l ?r ?g ?d = (inl _, _) |- _ =>
      destruct (Rt x l r g d) as (? & ? & Hr); rewrite Hr in H; discriminate H
  | H : generate_buildings _ ?x ?l ?m ?r ?d = (inl _, _) |- _ =>
      destruct (Rb x l m r d) as (? & ? & Hr); rewrite Hr in H; discriminate H
  | H : generate_trees _ ?x ?l ?m ?r ?d = (inl _, _) |- _ =>
      destruct (Rr x l m r d) as (? & ? & Hr); rewrite Hr in H; discriminate H
  | H : create_roads _ ?x ?l ?m ?r ?z ?s ?w ?n ?d = (inl _, _) |- _ =>
      destruct (Rd x l m r z s w n d) as (? & ? & Hr);
      rewrite Hr in H; discriminate H
  end.

(** The answers of a reliable platform are never exceptions. *)
Ltac reliably R :=
  destruct R as (A & Ro & Rj);
  repeat match goal with
  | H : open_refused _ ?d ?path = Some _ |- _ =>
      rewrite (Ro d path) in H; discriminate H
  | H : dump_refused _ ?d ?obj ?path = Some _ |- _ =>
      rewrite (Rj d obj path) in H; discriminate H
  end;
  answered A.

(** The answers of a platform that keeps [path] leave that file as it was. *)
Ltac keeping K :=
  destruct K as (Kc & Kt & Kb & Kr & Kd);
  repeat match goal with
  | H : construct _ ?p ?c ?d = _ |- _ =>
      let Hk := fresh in
      pose proof (Kc p c d) as Hk; rewrite H in Hk; simpl in Hk; clear H
  | H : get_terrain _ ?x ?l ?r ?g ?d = _ |- _ =>
      let Hk := fresh in
      pose proof (Kt x l r g d) as Hk; rewrite H in Hk; simpl in Hk; clear H
  | H : generate_buildings _ ?x ?l ?m ?r ?d = _ |- _ =>
      let Hk := fresh in
      pose proof (Kb x l m r d) as Hk; rewrite H in Hk; simpl in Hk; clear H
  | H : generate_trees _ ?x ?l ?m ?r ?d = _ |- _ =>
      let Hk := fresh in
      pose proof (Kr x l m r d) as Hk; rewrite H in Hk; simpl in Hk; clear H
  | H : create_roads _ ?x ?l ?m ?r ?z ?s ?w ?n ?d = _ |- _ =>
      let Hk := fresh in
      pose proof (Kd x l m r z s w n d) as Hk; rewrite H in Hk; simpl in Hk;
      clear H
  end.

Section Outcomes.
Context {E Mesh Prep : Type}.
Variable osm : platform E Mesh Prep.
Implicit Types (a : args) (d : disk) (scene : pyobj) (p : provider).



(** X6. Reliable platform. On a platform whose providers never raise, whose
    [open] is never refused and whose [json.dump] always goes through, the
    method raises nothing but [OverflowError], and that exactly when it has to
    multiply a radius too large for a float; otherwise it completes. *)
Theorem outcome_on_reliable_platform a d :
  reliable osm ->
  match result osm a d with
  | inr scene => overflows a = false
  | inl e => e = OverflowError /\ overflows a = true
  end.
Proof.
  intros R. unfold overflows. symbolic_run a.
  all: try (reliably R; fail).
  all: repeat match goal with H : py_mul_float _ _ = _ |- _ => rewrite H end.
  all: try split; reflexivity.
Qed.

End Outcomes.

(** ** Descriptor files of several calls *)

Lemma length_append (s t : string) :
  String.length (s +:+ t) = (String.length s + String.length t)%nat.
Proof. induction s as [|c s IH]; simpl; [done|]. by rewrite IH. Qed.

(** Appending a suffix loses nothing. *)
Lemma append_inj_suffix (t s1 s2 : string) : s1 +:+ t = s2 +:+ t -> s1 = s2.
Proof.
  revert s2. induction s1 as [|c s1 IH]; intros [|c' s2] H.
  - done.
  - apply (f_equal String.length) in H.
    rewrite !length_append in H. simpl in H. lia.
  - apply (f_equal String.length) in H.
    rewrite !length_append in H. simpl in H. lia.
  - change (String c (s1 +:+ t) = String c' (s2 +:+ t)) in H.
    injection H as -> H. f_equal. by apply IH.
Qed.

(** A relative path and an absolute one differ in their first character. *)
Lemma relative_not_absolute (s t : string) :
  "." +:+ s <> "/" +:+ t.
Proof. intros H. cbv [append] in H. discriminate H. Qed.

Lemma json_path_inj a b : json_path a = json_path b -> env_name a = env_name b.
Proof.
  unfold json_path, os_path_join. rewrite !startswith_slash_json.
  assert (Hrel : forall s t : string,
            "." +:+ "/" +:+ s +:+ ".json" = "." +:+ "/" +:+ t +:+ ".json" ->
            s = t).
  { intros s t H. apply (inj (append ".")), (inj (append "/")) in H.
    by apply append_inj_suffix in H. }
  destruct (env_name a) as [|ca na], (env_name b) as [|cb nb]; simpl.
  - done.
  - destruct (Ascii.eqb_spec cb "/") as [->|_]; [|by apply Hrel].
    intros H. by apply relative_not_absolute in H.
  - destruct (Ascii.eqb_spec ca "/") as [->|_]; [|by apply Hrel].
    intros H. symmetry in H. by apply relative_not_absolute in H.
  - destruct (Ascii.eqb_spec ca "/") as [->|_],
      (Ascii.eqb_spec cb "/") as [->|_].
    + apply append_inj_suffix.
    + intros H. symmetry in H. by apply relative_not_absolute in H.
    + intros H. by apply relative_not_absolute in H.
    + apply Hrel.
Qed.

(** X9. Distinct names, distinct files. Two calls whose environment names differ
    write their descriptors at different paths. *)
Theorem distinct_names_distinct_files a b :
  env_name a <> env_name b -> json_path a <> json_path b.
Proof. intros Hne Heq. by apply Hne, json_path_inj. Qed.

Section Files.
Context {E Mesh Prep : Type}.
Variable osm : platform E Mesh Prep.
Implicit Types (a : args) (d : disk) (scene : pyobj) (p : provider).

Lemma other_files_kept a d (path : string) :
  keeps osm path ->
  path <> json_path a ->
  disk_after osm a d !! path = d !! path.
Proof.
  intros K. unfold json_path. symbolic_run a.
  all: intros Hpath; keeping K.
  all: rewrite ?lookup_alter_ne, ?lookup_insert_ne by done.
  all: congruence.
Qed.

(** Paths that do not lead to one file are different paths. *)
Lemma told_apart (cwd : string) (same_file : string -> string -> Prop)
    (p q : string) :
  aliasing cwd same_file -> ~ same_file p q -> p <> q.
Proof. intros Halias Hnot ->. by apply Hnot, Halias. Qed.


(** X10. Two environments. After two calls that complete, one after the
    other, whose descriptor paths cannot lead to one file, on a platform
    whose providers leave the first descriptor alone, the disk holds both
    descriptors, each at its path. *)
Theorem descriptors_coexist (cwd : string)
    (same_file : string -> string -> Prop) a b d scene_a scene_b :
  aliasing cwd same_file ->
  keeps osm (json_path a) ->
  ~ same_file (json_path a) (json_path b) ->
  result osm a d = inr scene_a ->
  result osm b (disk_after osm a d) = inr scene_b ->
  disk_after osm b (disk_after osm a d) !! json_path a
  = Some (TextFile "utf-8" [JsonText scene_a 4]) /\
  disk_after osm b (disk_after osm a d) !! json_path b
  = Some (TextFile "utf-8" [JsonText scene_b 4]).
Proof.
  intros Halias K Hnot Ha Hb. split.
  - rewrite other_files_kept; [|done|].
    + by destruct (descriptor_dumped osm a d scene_a Ha) as (_ & _ & _ & ->).
    + by apply (told_apart cwd same_file).
  - by destruct (descriptor_dumped osm b _ scene_b Hb) as (_ & _ & _ & ->).
Qed.

End Files.


(** ** Logging *)

Lemma append_empty (s : string) : s +:+ "" = s.
Proof.
  induction s as [|c s IH]; [reflexivity|].
  change (String c (s +:+ "") = String c s). by rewrite IH.
Qed.

Lemma format_default (name levelname msg : string) :
  percent_format 0 default_format name levelname msg = msg.
Proof. cbv -[append]. apply append_empty. Qed.

Lemma format_std_log (msg : string) :
  percent_format 0 "%(name)s - %(levelname)s - %(message)s" "root" "INFO" msg
  = "root - INFO - " +:+ msg.
Proof. cbv -[append]. by rewrite append_empty. Qed.

(** What the root logger is after generators were made. *)
Lemma made_from (App : Type) (applications : list App) (lg : logging_state) :
  fold_left (fun lg application => (@__init__ App unit application lg).2)
    applications lg
  = match applications with
    | [] => lg
    | _ :: _ =>
        Logging DEBUG
          (root_handlers lg ++ replicate (length applications) stdout_handler)
    end.
Proof.
  revert lg. induction applications as [|x xs IH]; intros lg; [done|].
  simpl. rewrite IH. destruct xs as [|y ys]; simpl; [done|].
  by rewrite <- app_assoc.
Qed.

Lemma emits_stdout (n : nat) (msg : string) :
  (fun h =>
     (handler_sink h,
      percent_format 0 (handler_format h) "root" "INFO" msg +:+ terminator))
  <$> filter (fun h => (handler_level h <= INFO)%Z) (replicate n stdout_handler)
  = replicate n (ToStdout, msg +:+ terminator).
Proof.
  induction n as [|n IH]; [done|].
  change (replicate (S n) stdout_handler)
    with (stdout_handler :: replicate n stdout_handler).
  rewrite filter_cons_True by (cbv; discriminate).
  rewrite fmap_cons, IH. unfold stdout_handler at 1.
  cbn [handler_sink handler_format]. by rewrite format_default.
Qed.

Lemma emits_after_making (App : Type) (applications : list App) (msg : string) :
  logger_emits (generators_made applications interpreter_start) msg
  = match applications with
    | [] => []
    | _ :: _ =>
        (ToFile "std.log" "w", "root - INFO - " +:+ msg +:+ terminator)
        :: replicate (length applications) (ToStdout, msg +:+ terminator)
    end.
Proof.
  unfold generators_made. rewrite made_from.
  destruct applications as [|x xs]; [reflexivity|].
  unfold logger_emits, module_import, basicConfig, interpreter_start.
  cbn [root_level root_handlers app]. change (DEBUG <=? INFO)%Z with true.
  cbn iota. rewrite filter_cons_True by (cbv; discriminate).
  rewrite fmap_cons. cbn [handler_sink handler_format].
  rewrite format_std_log. f_equal.
  apply (emits_stdout (S (length xs)) msg).
Qed.

(** X12. Log lines. In an interpreter that had configured no logging, after the
    import of the module and the making of [n] generators, a message logged at
    level INFO is written [n] times to the standard output, as it is, and,
    when [n] is not 0, once to [std.log], behind "root - INFO - "; with no
    generator made, it is written nowhere. *)
Theorem log_lines (App : Type) (applications : list App) (msg : string) :
  logger_emits (generators_made applications interpreter_start) msg
  = match applications with
    | [] => []
    | _ :: _ =>
        (ToFile "std.log" "w", "root - INFO - " +:+ msg +:+ terminator)
        :: replicate (length applications) (ToStdout, msg +:+ terminator)
    end.
Proof. apply emits_after_making. Qed.

Lemma written_to_app (s : sink) (l1 l2 : list (sink * string)) :
  written_to s (l1 ++ l2) = written_to s l1 ++ written_to s l2.
Proof. unfold written_to. by rewrite filter_app, fmap_app. Qed.

Lemma written_to_stdout_copies (s : sink) (n : nat) (line : string) :
  written_to s (replicate n (ToStdout, line))
  = if decide (ToStdout = s) then replicate n line else [].
Proof.
  unfold written_to. induction n as [|n IH]; simpl; [by case_decide|].
  rewrite filter_cons. simpl. case_decide; csimpl; by rewrite IH.
Qed.

Lemma output_of_messages (App : Type) (applications : list App)
    (msgs : list string) :
  applications <> [] ->
  written_to ToStdout
    (msgs ≫= logger_emits (generators_made applications interpreter_start))
  = msgs ≫= (fun m => replicate (length applications) (m +:+ terminator)) /\
  written_to (ToFile "std.log" "w")
    (msgs ≫= logger_emits (generators_made applications interpreter_start))
  = (fun m => "root - INFO - " +:+ m +:+ terminator) <$> msgs.
Proof.
  intros Hsome. induction msgs as [|m msgs [IHout IHfile]]; [done|].
  rewrite !bind_cons, !written_to_app, IHout, IHfile, emits_after_making.
  destruct applications as [|x xs]; [done|].
  change (written_to ?s (?e :: ?l)) with (written_to s ([e] ++ l)).
  rewrite !written_to_app, !written_to_stdout_copies.
  split; reflexivity.
Qed.

(** ** The host *)

(** X14. Last host. A generator read through several hosts, one after the other,
    is left bound to the last of them (to none, if that read was on the
    class); read through none, it stays as it was. *)
Theorem bound_to_last_host (Host Owner : Type) (self : ModelGenerator Host)
    (hosts : list (option Host)) (owner : Owner) :
  _app (bound_in_turn self hosts owner) = default (_app self) (last hosts).
Proof.
  unfold bound_in_turn. revert self.
  induction hosts as [|h hosts IH]; intros self; [done|].
  simpl. rewrite IH, last_cons. by destruct (last hosts).
Qed.

(** ** What a call prints *)

Section Output.
Context {E Mesh Prep : Type}.
Variable osm : platform E Mesh Prep.
Implicit Types (a : args) (d : disk) (scene : pyobj).

Lemma messages_of_completed a d scene :
  result osm a d = inr scene ->
  messages (log osm a d) = omap stage_message (requested a) ++ ["Done..."].
Proof. symbolic_run a; completed; reflexivity. Qed.

(** X13. Output of a call. With [n] generators made, [n] not 0, in an interpreter
    that had configured no logging, a call that completes writes to the
    standard output, [n] times each, the message of every requested stage
    and then "Done...", and writes each of them once to [std.log], behind
    "root - INFO - ". *)
Theorem output_of_a_call (App : Type) (applications : list App) a d scene :
  applications <> [] ->
  result osm a d = inr scene ->
  written_to ToStdout
    (deliveries (generators_made applications interpreter_start) (log osm a d))
  = (omap stage_message (requested a) ++ ["Done..."])
      ≫= (fun m => replicate (length applications) (m +:+ terminator)) /\
  written_to (ToFile "std.log" "w")
    (deliveries (generators_made applications interpreter_start) (log osm a d))
  = (fun m => "root - INFO - " +:+ m +:+ terminator)
      <$> (omap stage_message (requested a) ++ ["Done..."]).
Proof.
  intros Hsome Hrun. unfold deliveries.
  rewrite (messages_of_completed a d scene Hrun).
  by apply output_of_messages.
Qed.
End Output.

(** ** The further properties at work *)

(** The survey office answers and keeps every file; on a day when nothing is
    refused it is reliable. *)
Lemma survey_answering errno error : answering (Survey.office errno error).
Proof. repeat split; intros; by eexists _, _. Qed.

Lemma survey_reliable : reliable (Survey.osm None).
Proof. split; [apply survey_answering|by split]. Qed.

Lemma survey_keeps errno error path : keeps (Survey.office errno error) path.
Proof. by repeat split. Qed.

(** Paths that lead to one place from [/srv], and paths that do not. *)
Example one_place :
  leads_to "/srv" "a.json" = leads_to "/srv" "./a.json" /\
  leads_to "/srv" "././a.json" = leads_to "/srv" "./a.json" /\
  leads_to "/srv" "x/../a.json" = leads_to "/srv" "./a.json" /\
  leads_to "/srv" "/srv//a.json" = leads_to "/srv" "./a.json" /\
  leads_to "/srv" (json_path (Town.named "./a"))
  = leads_to "/srv" (json_path (Town.named "a")) /\
  leads_to "/srv" "/a.json" <> leads_to "/srv" "./a.json" /\
  leads_to "/srv" "./town_a.json" <> leads_to "/srv" "./town_b.json".
Proof. repeat split; discriminate. Qed.

(** The registry entry of the trees, at the town. *)
Lemma registry_entries_town :
  exists parts prep terrain_mesh max_radius d0 part_geo d1,
    py_field "parts" (descriptor (Town.named "town_a") Town.full_registry)
    = Some (PyDict parts) /\
    generation (Town.osm None) (Town.named "town_a") Trees
      prep terrain_mesh max_radius d0 = (inr part_geo, d1) /\
    dict_get "trees" parts
    = Some (part_dict (file_name part_geo) "green" "wood").
Proof.
  apply (registry_entries (Town.osm None) (Town.named "town_a") ∅
           (descriptor (Town.named "town_a") Town.full_registry) Trees).
  - reflexivity.
  - apply list_elem_of_In. vm_compute. tauto.
Defined.

(** The arguments handed on, at the town. *)
Example arguments_handed_on_town :
  anchors (log (Town.osm None) (Town.named "town_a") ∅)
  = [Town.anchor; Town.anchor; Town.anchor; Town.anchor] /\
  cad_paths (log (Town.osm None) (Town.named "town_a") ∅) = ["."; "."; "."; "."] /\
  grid_sizes (log (Town.osm None) (Town.named "town_a") ∅) = [30].
Proof. repeat split. Qed.



(** The two outcomes on a reliable platform. *)
Lemma outcome_on_reliable_platform_survey :
  match result (Survey.osm None) Survey.vast ∅ with
  | inr scene => overflows Survey.vast = false
  | inl e => e = OverflowError /\ overflows Survey.vast = true
  end /\
  match result (Survey.osm None) (Town.named "town_a") ∅ with
  | inr scene => overflows (Town.named "town_a") = false
  | inl e => e = OverflowError /\ overflows (Town.named "town_a") = true
  end.
Proof.
  split.
  - apply (outcome_on_reliable_platform (Survey.osm None) Survey.vast ∅).
    apply survey_reliable.
  - apply (outcome_on_reliable_platform (Survey.osm None) (Town.named "town_a") ∅).
    apply survey_reliable.
Defined.

(** A dump that raises, at the survey office: the stale descriptor is gone,
    and a beginning of the new one is in its place. *)
Example dump_raises_at_the_office :
  result (Survey.office None (Some NotEncodable)) (Town.named "town_a") Town.stale
  = inl ValueError /\
  disk_after (Survey.office None (Some NotEncodable))
    (Town.named "town_a") Town.stale !! "./town_a.json"
  = Some (TextFile "utf-8"
            [JsonPrefix (descriptor (Town.named "town_a") Survey.registry) 4]).
Proof. split; reflexivity. Qed.



Lemma distinct_names_distinct_files_town :
  json_path (Town.named "town_a") <> json_path (Town.named "town_b").
Proof.
  apply (distinct_names_distinct_files (Town.named "town_a") (Town.named "town_b")).
  discriminate.
Defined.

(** town_a, then town_b: both descriptors are on the disk. *)
Lemma descriptors_coexist_survey :
  disk_after (Survey.osm None) (Town.named "town_b")
    (disk_after (Survey.osm None) (Town.named "town_a") ∅)
    !! json_path (Town.named "town_a")
  = Some (TextFile "utf-8"
            [JsonText (descriptor (Town.named "town_a") Survey.registry) 4]) /\
  disk_after (Survey.osm None) (Town.named "town_b")
    (disk_after (Survey.osm None) (Town.named "town_a") ∅)
    !! json_path (Town.named "town_b")
  = Some (TextFile "utf-8"
            [JsonText (descriptor (Town.named "town_b") Survey.registry) 4]).
Proof.
  apply (descriptors_coexist (Survey.osm None) "/srv"
           (fun p q => leads_to "/srv" p = leads_to "/srv" q)
           (Town.named "town_a") (Town.named "town_b") ∅).
  - intros p q H. exact H.
  - apply survey_keeps.
  - intros H. vm_compute in H. discriminate H.
  - reflexivity.
  - reflexivity.
Defined.


(** Two generators made: every line twice on the standard output. *)
Example log_lines_two_generators :
  logger_emits (generators_made ["hfss"; "icepak"] interpreter_start) "Done..."
  = [(ToFile "std.log" "w", "root - INFO - Done..." +:+ terminator);
     (ToStdout, "Done..." +:+ terminator);
     (ToStdout, "Done..." +:+ terminator)].
Proof. reflexivity. Qed.

(** Nothing but terrain and roads, two generators made. *)
Lemma output_of_a_call_town :
  written_to ToStdout
    (deliveries (generators_made ["hfss"; "icepak"] interpreter_start)
       (log (Town.osm None) (Town.only "lane" false true false) ∅))
  = ["Generating Road Geometry" +:+ terminator;
     "Generating Road Geometry" +:+ terminator;
     "Done..." +:+ terminator; "Done..." +:+ terminator] /\
  written_to (ToFile "std.log" "w")
    (deliveries (generators_made ["hfss"; "icepak"] interpreter_start)
       (log (Town.osm None) (Town.only "lane" false true false) ∅))
  = ["root - INFO - Generating Road Geometry" +:+ terminator;
     "root - INFO - Done..." +:+ terminator].
Proof.
  apply (output_of_a_call (Town.osm None) string ["hfss"; "icepak"]
           (Town.only "lane" false true false) ∅
           (descriptor (Town.only "lane" false true false)
              [("terrain", part_dict "./terrain.stl" "brown" "earth");
               Town.part "road" "black" "asphalt"])).
  - discriminate.
  - reflexivity.
Defined.

(** Read through two hosts, then on the class. *)
Example bound_to_last_host_hosts :
  _app (bound_in_turn (Generator None) [Some "hfss"; Some "icepak"] tt)
  = Some "icepak" /\
  _app (bound_in_turn (Generator None) [Some "hfss"; None] tt) = None.
Proof. split; reflexivity. Qed.
